(** * Alloy CRM demo: the two API routes and the two list/form views

    Shallow embedding of
    - [pages/api/contacts.js]       (Contact Gateway, README.md step 5.1),
    - [pages/api/get-jwt-token.js]  (Session Bridge, README.md step 5.2),
    - [CreateContact] and [ContactList] (src/app/components/CreateContact/CreateContact.js),
    - [Home] (the page that mounts them).

    JavaScript values, Next.js requests and responses and axios's way of
    settling a promise are modelled first; each handler is then a pure
    function from its inputs (configuration, the vendor, the request) to the
    outbound calls it makes and the response it sends. *)

From Stdlib Require Import String Ascii List ZArith Bool Lia.
Import ListNotations.
Open Scope string_scope.
Set Warnings "-register-all".

(** ** JavaScript values *)
Module JS.

Inductive val : Type :=
| VUndef
| VNull
| VBool (b : bool)
| VNum (z : Z)
| VStr (s : string)
| VArr (l : list val)
| VObj (fields : list (string * val)).

Fixpoint assoc {A} (k : string) (l : list (string * A)) : option A :=
  match l with
  | [] => None
  | (k', v) :: l' => if String.eqb k k' then Some v else assoc k l'
  end.

(** [o.k]: [None] when JavaScript throws a TypeError (property read on
    [undefined] or [null]); a missing property reads as [undefined]. *)
Definition get_prop (o : val) (k : string) : option val :=
  match o with
  | VUndef | VNull => None
  | VObj fs => Some (match assoc k fs with Some v => v | None => VUndef end)
  | VArr l => Some (if String.eqb k "length" then VNum (Z.of_nat (length l)) else VUndef)
  | VStr s => Some (if String.eqb k "length" then VNum (Z.of_nat (String.length s)) else VUndef)
  | VBool _ | VNum _ => Some VUndef
  end.

(** JavaScript truthiness of a string: only [""] is falsy. *)
Definition truthy_str (s : string) : bool := negb (String.eqb s "").

(** [`${x}`] for an environment variable ([process.env.X] is a string or
    [undefined]). *)
Definition env_str (x : option string) : string :=
  match x with Some s => s | None => "undefined" end.

End JS.
Import JS.

(** ** Next.js API requests and responses *)
Module Http.

(** A value of [req.query]: absent, a single string, or a repeated
    parameter (an array of strings). *)
Inductive qval : Type :=
| QAbsent
| QStr (s : string)
| QArr (l : list string).

Definition qtruthy (q : qval) : bool :=
  match q with
  | QAbsent => false
  | QStr s => truthy_str s
  | QArr _ => true
  end.

(** [`${q}`]: an array is joined with commas. *)
Definition qinterp (q : qval) : string :=
  match q with
  | QAbsent => "undefined"
  | QStr s => s
  | QArr l => String.concat "," l
  end.

Record request : Type := mkRequest {
  method : string;
  query : list (string * qval);
  req_body : val
}.

Definition query_get (r : request) (k : string) : qval :=
  match assoc k (query r) with Some q => q | None => QAbsent end.

Inductive body : Type :=
| NoBody
| JsonBody (v : val)
| TextBody (s : string).

Record response : Type := mkResponse {
  status : Z;
  headers : list (string * list string);
  res_body : body
}.

(** [res.status(c).json(v)]; [res.json(v)] keeps the default status 200. *)
Definition res_json (c : Z) (v : val) : response := mkResponse c [] (JsonBody v).

(** An outbound HTTP request made with axios. *)
Record outbound : Type := mkOutbound {
  o_method : string;
  o_url : string;
  o_headers : list (string * string);
  o_body : option val
}.

(** The reply the transport delivers for an outbound request. [Text] is a
    body that is not valid JSON. *)
Inductive payload : Type :=
| Json (v : val)
| Text (s : string).

Inductive reply : Type :=
| NetworkError
| Reply (code : Z) (p : payload).

(** What axios hands to [await]: with its defaults ([validateStatus]
    accepting 2xx, silent JSON parsing of the body) a 2xx reply resolves
    with [response.data] (the parsed body, or the raw text when it does not
    parse) and anything else rejects. *)
Inductive settled : Type :=
| Resolved (data : val)
| Rejected.

Definition payload_data (p : payload) : val :=
  match p with Json v => v | Text s => VStr s end.

Definition is_2xx (c : Z) : bool := (200 <=? c)%Z && (c <? 300)%Z.

Definition axios_settle (r : reply) : settled :=
  match r with
  | NetworkError => Rejected
  | Reply c p => if is_2xx c then Resolved (payload_data p) else Rejected
  end.

(** The vendor at a fixed state: what it replies to each outbound request. *)
Definition vendor := outbound -> reply.

End Http.
Import Http.

(** ** [pages/api/contacts.js] *)
Module Contacts.

Definition contacts_url (connectionId : qval) : string :=
  "https://embedded.runalloy.com/2023-12/one/crm/contacts?connectionId=" ++ qinterp connectionId.

(** The [axios.get] of the [GET] case. *)
Definition get_call (YOUR_API_KEY : option string) (connectionId : qval) : outbound :=
  mkOutbound "GET" (contacts_url connectionId)
    [("Authorization", "bearer " ++ env_str YOUR_API_KEY); ("accept", "application/json")]
    None.

(** The [axios.post] of the [POST] case, with [req.body] as its body. *)
Definition post_call (YOUR_API_KEY : option string) (connectionId : qval) (b : val) : outbound :=
  mkOutbound "POST" (contacts_url connectionId)
    [("Authorization", "bearer " ++ env_str YOUR_API_KEY); ("accept", "application/json");
     ("content-type", "application/json")]
    (Some b).

(** [handler(req, res)]: the outbound calls made, and the response sent.
    [YOUR_API_KEY] is [process.env.ALLOY_API_KEY], read at module load. *)
Definition handler (YOUR_API_KEY : option string) (v : vendor) (req : request)
  : list outbound * response :=
  let connectionId := query_get req "connectionId" in
  if negb (qtruthy connectionId) then
    ([], res_json 400 (VObj [("error", VStr "ConnectionId is required")]))
  else if String.eqb (method req) "GET" then
    let c := get_call YOUR_API_KEY connectionId in
    ([c], match axios_settle (v c) with
          | Resolved data => res_json 200 data
          | Rejected => res_json 500 (VObj [("error", VStr "Error fetching contacts")])
          end)
  else if String.eqb (method req) "POST" then
    let c := post_call YOUR_API_KEY connectionId (req_body req) in
    ([c], match axios_settle (v c) with
          | Resolved data => res_json 200 data
          | Rejected => res_json 500 (VObj [("error", VStr "Error creating contact")])
          end)
  else
    ([], mkResponse 405 [("Allow", ["GET"; "POST"])]
           (TextBody ("Method " ++ method req ++ " Not Allowed"))).

End Contacts.

(** ** [pages/api/get-jwt-token.js] *)
Module JwtToken.

Definition token_call (YOUR_API_KEY userId : option string) : outbound :=
  mkOutbound "GET" ("https://embedded.runalloy.com/2023-12/users/" ++ env_str userId ++ "/token")
    [("Authorization", "Bearer " ++ env_str YOUR_API_KEY); ("accept", "application/json")]
    None.

Definition token_error : response :=
  res_json 500 (VObj [("error", VStr "Error generating JWT token")]).

(** [handler(req, res)]: [req] is never read. Reading [response.data.token]
    throws (and lands in the [catch]) when [response.data] is [null]. *)
Definition handler (YOUR_API_KEY userId : option string) (v : vendor) (req : request)
  : list outbound * response :=
  let c := token_call YOUR_API_KEY userId in
  ([c], match axios_settle (v c) with
        | Resolved data =>
            match get_prop data "token" with
            | Some t => res_json 200 (VObj [("token", t)])
            | None => token_error
            end
        | Rejected => token_error
        end).

End JwtToken.

(** ** [CreateContact] *)
Module CreateContact.

(** The component's state: its two [useState] hooks. *)
Record form : Type := mkForm { firstName : string; lastName : string }.

Definition submit_call (connectionId : string) (f : form) : outbound :=
  mkOutbound "POST" ("/api/contacts?connectionId=" ++ connectionId) []
    (Some (VObj [("firstName", VStr (firstName f)); ("lastName", VStr (lastName f))])).

(** [handleSubmit]: the calls issued and the form state once the awaited
    request has settled. [server] answers the browser's calls to the API
    routes. *)
Definition handleSubmit (connectionId : string) (server : vendor) (f : form)
  : list outbound * form :=
  if truthy_str connectionId then
    let c := submit_call connectionId f in
    match axios_settle (server c) with
    | Resolved _ => ([c], mkForm "" "")
    | Rejected => ([c], f)
    end
  else ([], f).

End CreateContact.

(** ** [ContactList] *)
Module ContactList.

Record list_state : Type := mkState { contacts : val; isLoading : bool }.

(** [useState([])], [useState(false)]. *)
Definition init : list_state := mkState (VArr []) false.

Definition fetch_call (connectionId : string) : outbound :=
  mkOutbound "GET" ("/api/contacts?connectionId=" ++ connectionId) [] None.

(** [fetchContacts]: [setIsLoading(true)], then after the request has
    settled either [setContacts(response.data.contacts)] and
    [setIsLoading(false)], or, when the request rejects or reading
    [response.data.contacts] throws, the [catch]'s [setIsLoading(false)]. *)
Definition fetchContacts (connectionId : string) (server : vendor) (st : list_state)
  : list outbound * list_state :=
  if truthy_str connectionId then
    let c := fetch_call connectionId in
    let st1 := mkState (contacts st) true in
    match axios_settle (server c) with
    | Resolved data =>
        match get_prop data "contacts" with
        | Some cs => ([c], mkState cs false)
        | None => ([c], mkState (contacts st1) false)
        end
    | Rejected => ([c], mkState (contacts st1) false)
    end
  else ([], st).

(** What triggers [fetchContacts]: the [useEffect] on mount or on a change
    of [connectionId], and a click on the refresh button. *)
Inductive event : Type :=
| Activate
| Refresh.

Definition step (connectionId : string) (server : vendor) (st : list_state) (e : event)
  : list outbound * list_state :=
  match e with
  | Activate | Refresh => fetchContacts connectionId server st
  end.

(** Runs a sequence of events; returns every call issued, in order. *)
Fixpoint run (connectionId : string) (server : vendor) (st : list_state) (es : list event)
  : list outbound * list_state :=
  match es with
  | [] => ([], st)
  | e :: es' =>
      let '(cs1, st1) := step connectionId server st e in
      let '(cs2, st2) := run connectionId server st1 es' in
      ((cs1 ++ cs2)%list, st2)
  end.

Inductive view : Type :=
| Prompt        (** "Please complete Step 1 to connect an app and view contacts." *)
| Loading       (** "Loading contacts..." *)
| Items (l : list val)
| NoContacts    (** "No contacts found. Please try refreshing." *)
| RenderError   (** the render throws *)
| Unmodelled.   (** [length] needs a string/array/object to number conversion *)

(** Whether React accepts a value as a child: an object throws ("Objects
    are not valid as a React child"), an array is rendered element by
    element, strings and numbers print, [null], [undefined] and booleans
    print nothing. *)
Fixpoint child_ok (v : val) : bool :=
  match v with
  | VObj _ => false
  | VArr l =>
      (fix go (l : list val) : bool :=
         match l with [] => true | x :: xs => child_ok x && go xs end) l
  | _ => true
  end.

(** One [<li key={contact.id}>{contact.firstName} {contact.lastName}</li>]
    of [contacts.map]: reading [contact.id] on [null] or [undefined]
    throws, and so does a name React cannot render. *)
Definition item_ok (contact : val) : bool :=
  match get_prop contact "id" with
  | None => false
  | Some _ =>
      child_ok (match get_prop contact "firstName" with Some v => v | None => VUndef end) &&
      child_ok (match get_prop contact "lastName" with Some v => v | None => VUndef end)
  end.

(** [len > 0]: [undefined] is [NaN] and [null] is [0]; [None] where
    JavaScript would first convert a string, array or object to a number,
    which is not modelled. *)
Definition length_positive (len : val) : option bool :=
  match len with
  | VNum n => Some (0 <? n)%Z
  | VBool b => Some b
  | VNull | VUndef => Some false
  | VStr _ | VArr _ | VObj _ => None
  end.

(** The component's render. Once [contacts.length > 0] holds,
    [contacts.map] throws unless [contacts] is an array (a JSON value has
    no callable [map]), and every item must render. *)
Definition render (connectionId : string) (st : list_state) : view :=
  if negb (truthy_str connectionId) then Prompt
  else if isLoading st then Loading
  else match get_prop (contacts st) "length" with
       | None => RenderError
       | Some len =>
           match length_positive len with
           | None => Unmodelled
           | Some false => NoContacts
           | Some true =>
               match contacts st with
               | VArr l => if forallb item_ok l then Items l else RenderError
               | _ => RenderError
               end
           end
       end.

End ContactList.

(** ** [Home] *)
Module Home.

(** [{connectionId && <ContactList connectionId={connectionId} />}]:
    whether the Listing view is mounted for the page's [connectionId]. *)
Definition mounts_list (connectionId : string) : bool := truthy_str connectionId.

End Home.

(** ** JavaScript conversions used by the browser code *)
Module JSConv.

(** Decimal digits of [n], prepended to [acc]; [fuel] is the bit size of
    [n], which bounds its number of decimal digits. *)
Fixpoint digits (fuel : nat) (n : N) (acc : string) : string :=
  match fuel with
  | O => acc
  | S f =>
      let acc' := String (ascii_of_N (48 + N.modulo n 10)) acc in
      if (n <? 10)%N then acc' else digits f (N.div n 10) acc'
  end.

Definition string_of_Z (z : Z) : string :=
  match z with
  | Z0 => "0"
  | Zpos p => digits (Pos.size_nat p) (Npos p) ""
  | Zneg p => "-" ++ digits (Pos.size_nat p) (Npos p) ""
  end.

(** [String(v)]: arrays are joined with commas, their [null] and
    [undefined] elements printing as [""]. A [VNum z] prints in plain
    decimal, which is what JavaScript prints for the integers that are
    exactly JavaScript numbers, those of magnitude at most 2^53 - 1 (see
    [num_safe]); beyond them JavaScript rounds to a double and, from 1e21
    on, uses exponent form, which is not modelled. *)
Fixpoint to_string (v : val) : string :=
  match v with
  | VUndef => "undefined"
  | VNull => "null"
  | VBool b => if b then "true" else "false"
  | VNum z => string_of_Z z
  | VStr s => s
  | VArr l =>
      String.concat ","
        ((fix go (l : list val) : list string :=
            match l with
            | [] => []
            | x :: xs =>
                (match x with VUndef | VNull => "" | _ => to_string x end) :: go xs
            end) l)
  | VObj _ => "[object Object]"
  end.


(** JavaScript truthiness ([NaN] is not modelled). *)
Definition truthy (v : val) : bool :=
  match v with
  | VUndef | VNull => false
  | VBool b => b
  | VNum z => negb (Z.eqb z 0)
  | VStr s => truthy_str s
  | VArr _ | VObj _ => true
  end.

End JSConv.
Import JSConv.

(** ** [ConnectApp] (README.md, Step 4) *)
Module ConnectApp.

(** What [fetchTokenAndAuthenticate] does besides its request. *)
Inductive effect : Type :=
| SetToken (t : val)                  (** [window.Alloy.setToken(t)] *)
| Authenticate (category : string)    (** [window.Alloy.authenticate({category, callback})] *)
| SetItem (k v : string)              (** [localStorage.setItem(k, v)] *)
| Established (id : val)              (** [onConnectionEstablished(id)] *)
| ConsoleError (msg : string).        (** [console.error(msg, ...)] *)

Definition token_request : outbound := mkOutbound "GET" "/api/get-jwt-token" [] None.

(** The [callback] given to the SDK, run on the [data] it reports.
    Reading [data.success] on [null] throws inside the SDK's call and
    nothing happens. [localStorage.setItem] stores [String(value)]. *)
Definition callback (data : val) : list effect :=
  match get_prop data "success" with
  | None => []
  | Some s =>
      if truthy s then
        let id := match get_prop data "connectionId" with Some i => i | None => VUndef end in
        [SetItem "connectionId" (to_string id); Established id]
      else []
  end.

(** [fetchTokenAndAuthenticate]. [alloy] says whether [window.Alloy] is
    defined; [sdk] is the [data] the SDK later passes to the callback, if it
    calls it. [window.Alloy] is tested before [response.data.token] is
    read; a throw of that read lands in the [catch]. *)
Definition fetchTokenAndAuthenticate (server : vendor) (alloy : bool) (sdk : option val)
  : list outbound * list effect :=
  let c := token_request in
  ([c], match axios_settle (server c) with
        | Rejected => [ConsoleError "Error fetching JWT token:"]
        | Resolved data =>
            if alloy then
              match get_prop data "token" with
              | None => [ConsoleError "Error fetching JWT token:"]
              | Some t =>
                  SetToken t :: Authenticate "crm" ::
                  match sdk with Some d => callback d | None => [] end
              end
            else [ConsoleError "Alloy SDK not found"]
        end).

End ConnectApp.

(** ** The page: [Home]'s [connectionId] state and [localStorage] *)
Module Page.
Import ConnectApp.

Record page : Type := mkPage {
  connectionId : val;                       (** [useState('')] of [Home] *)
  storage : list (string * string)          (** [localStorage] *)
}.

Definition init (storage : list (string * string)) : page := mkPage (VStr "") storage.

(** [localStorage.setItem(k, v)]: replaces the entry of [k] or adds one. *)
Definition set_item (k v : string) (st : list (string * string)) : list (string * string) :=
  (k, v) :: filter (fun kv => negb (String.eqb (fst kv) k)) st.

(** [handleConnectionEstablished] of [Home] is [setConnectionId]. *)
Definition apply_effect (p : page) (e : effect) : page :=
  match e with
  | SetItem k v => mkPage (connectionId p) (set_item k v (storage p))
  | Established id => mkPage id (storage p)
  | _ => p
  end.

Definition apply_effects (p : page) (es : list effect) : page := fold_left apply_effect es p.

(** [{connectionId && <ContactList .../>}] and the same for
    [CreateContact]: whether the two views are mounted. *)
Definition mounts_views (p : page) : bool := truthy (connectionId p).

End Page.

(** ** [CreateContact]'s form *)
Module CreateContactForm.
Import CreateContact.

(** The two inputs are [required]: the browser's constraint validation
    fires [submit] (and so [handleSubmit]) only when neither is empty. *)
Definition form_valid (f : form) : bool :=
  truthy_str (firstName f) && truthy_str (lastName f).

Inductive event : Type :=
| InputFirst (s : string)   (** [onChange={e => setFirstName(e.target.value)}] *)
| InputLast (s : string)    (** [onChange={e => setLastName(e.target.value)}] *)
| Submit.                   (** the "Add Contact" button *)

Definition step (connectionId : string) (server : vendor) (f : form) (e : event)
  : list outbound * form :=
  match e with
  | InputFirst s => ([], mkForm s (lastName f))
  | InputLast s => ([], mkForm (firstName f) s)
  | Submit => if form_valid f then handleSubmit connectionId server f else ([], f)
  end.

End CreateContactForm.

(** ** [CreateContact] with its [await]: submissions and settlements
    interleave *)
Module CreateContactAsync.
Import CreateContact.

(** The two fields and the [axios.post] calls still awaited, oldest
    first. *)
Record ui : Type := mkUi { fields : form; pending : list outbound }.

Inductive event : Type :=
| InputFirst (s : string)
| InputLast (s : string)
| Submit          (** [handleSubmit] runs up to its [await] *)
| Settle (i : nat). (** the [i]-th pending request settles and its [handleSubmit] resumes *)

(** [handleSubmit] posts the values of the fields at submission time; on
    resumption a success clears the fields as they are then, a failure
    leaves them. Submission needs both [required] fields non-empty and a
    connection id. *)
Definition step (connectionId : string) (server : vendor) (u : ui) (e : event)
  : list outbound * ui :=
  match e with
  | InputFirst s => ([], mkUi (mkForm s (lastName (fields u))) (pending u))
  | InputLast s => ([], mkUi (mkForm (firstName (fields u)) s) (pending u))
  | Submit =>
      if CreateContactForm.form_valid (fields u) && truthy_str connectionId then
        let c := submit_call connectionId (fields u) in
        ([c], mkUi (fields u) (pending u ++ [c]))
      else ([], u)
  | Settle i =>
      match nth_error (pending u) i with
      | None => ([], u)
      | Some c =>
          let rest := (firstn i (pending u) ++ skipn (S i) (pending u))%list in
          match axios_settle (server c) with
          | Resolved _ => ([], mkUi (mkForm "" "") rest)
          | Rejected => ([], mkUi (fields u) rest)
          end
      end
  end.

Fixpoint run (connectionId : string) (server : vendor) (u : ui) (es : list event)
  : list outbound * ui :=
  match es with
  | [] => ([], u)
  | e :: es' =>
      let '(cs1, u1) := step connectionId server u e in
      let '(cs2, u2) := run connectionId server u1 es' in
      ((cs1 ++ cs2)%list, u2)
  end.

End CreateContactAsync.

(** ** [fetchContacts] split at its [await] *)
Module ContactListAsync.
Import ContactList.

(** Before the [await]: [setIsLoading(true)] and the request. *)
Definition fetch_begin (connectionId : string) (st : list_state) : option outbound * list_state :=
  if truthy_str connectionId then (Some (fetch_call connectionId), mkState (contacts st) true)
  else (None, st).

(** After the [await], on how the request settled. *)
Definition fetch_end (r : settled) (st : list_state) : list_state :=
  match r with
  | Resolved data =>
      match get_prop data "contacts" with
      | Some cs => mkState cs false
      | None => mkState (contacts st) false
      end
  | Rejected => mkState (contacts st) false
  end.

End ContactListAsync.

(** ** Sample runs *)

Definition vendor_down : vendor := fun _ => NetworkError.
Definition vendor_ok (d : val) : vendor := fun _ => Reply 200 (Json d).

Example contacts_get_sample :
  Contacts.handler (Some "k") (vendor_ok (VObj [("contacts", VArr [])]))
    (mkRequest "GET" [("connectionId", QStr "c1")] VUndef)
  = ([Contacts.get_call (Some "k") (QStr "c1")],
     res_json 200 (VObj [("contacts", VArr [])])).
Proof. reflexivity. Qed.

Example contacts_put_sample :
  snd (Contacts.handler (Some "k") vendor_down (mkRequest "PUT" [("connectionId", QStr "c1")] VUndef))
  = mkResponse 405 [("Allow", ["GET"; "POST"])] (TextBody "Method PUT Not Allowed").
Proof. reflexivity. Qed.

Example token_null_sample :
  snd (JwtToken.handler (Some "k") (Some "u") (vendor_ok VNull) (mkRequest "GET" [] VUndef))
  = JwtToken.token_error.
Proof. reflexivity. Qed.

Example list_render_sample :
  ContactList.render "c1"
    (snd (ContactList.fetchContacts "c1" (vendor_ok (VObj [("contacts", VArr [])])) ContactList.init))
  = ContactList.NoContacts.
Proof. reflexivity. Qed.

Example list_render_items_sample :
  ContactList.render "c1"
    (snd (ContactList.fetchContacts "c1"
            (vendor_ok (VObj [("contacts", VArr [VObj [("id", VNum 1); ("firstName", VStr "Ada");
                                                        ("lastName", VStr "Lovelace")]])]))
            ContactList.init))
  = ContactList.Items [VObj [("id", VNum 1); ("firstName", VStr "Ada"); ("lastName", VStr "Lovelace")]].
Proof. reflexivity. Qed.

Example list_render_object_name_sample :
  ContactList.render "c1"
    (ContactList.mkState (VArr [VObj [("id", VNum 1); ("firstName", VObj [])]]) false)
  = ContactList.RenderError.
Proof. reflexivity. Qed.

(** ** Helper lemmas *)

Lemma truthy_str_nonempty (s : string) : s <> "" -> truthy_str s = true.
Proof.
  intro H. unfold truthy_str. apply negb_true_iff, String.eqb_neq. exact H.
Qed.

(** The page does not mount the Listing view at all before a connection
    exists ([useState('')]). *)
Lemma home_hides_list_initially : Home.mounts_list "" = false.
Proof. reflexivity. Qed.

(** ** The Contact Gateway *)
Module ContactsProps.
Import Contacts.

Definition missing_connection : response :=
  res_json 400 (VObj [("error", VStr "ConnectionId is required")]).

(** C1: a request to [/api/contacts] whose [connectionId] is absent or
    empty gets 400 [{error: 'ConnectionId is required'}] and no outbound
    call is made, whatever its method. *)
Theorem missing_connection_rejected :
  forall (key : option string) (v : vendor) (req : request),
    query_get req "connectionId" = QAbsent \/ query_get req "connectionId" = QStr "" ->
    handler key v req = ([], missing_connection).
Proof.
  intros key v req [H | H]; unfold handler; rewrite H; reflexivity.
Qed.

Lemma missing_connection_rejected_witness :
  handler None vendor_down (mkRequest "DELETE" [] VUndef) = ([], missing_connection).
Proof. apply missing_connection_rejected. left. reflexivity. Defined.

(** C2: with a non-empty [connectionId], a [GET] makes the one vendor read
    and returns the vendor's body unchanged; a [POST] makes the one vendor
    write carrying [req.body] and returns the vendor's body unchanged. *)
Theorem success_passthrough :
  forall (key : option string) (v : vendor) (req : request) (s : string) (code : Z) (d : val),
    query_get req "connectionId" = QStr s -> s <> "" -> is_2xx code = true ->
    (method req = "GET" -> v (get_call key (QStr s)) = Reply code (Json d) ->
       handler key v req = ([get_call key (QStr s)], res_json 200 d)) /\
    (method req = "POST" -> v (post_call key (QStr s) (req_body req)) = Reply code (Json d) ->
       handler key v req = ([post_call key (QStr s) (req_body req)], res_json 200 d) /\
       o_body (post_call key (QStr s) (req_body req)) = Some (req_body req)).
Proof.
  intros key v req s code d Hq Hs Hc.
  assert (Ht : qtruthy (QStr s) = true) by (apply truthy_str_nonempty; exact Hs).
  split; intros Hm Hv; unfold handler; rewrite Hq, Ht, Hm; simpl.
  - rewrite Hv. simpl. rewrite Hc. reflexivity.
  - rewrite Hv. simpl. rewrite Hc. split; reflexivity.
Qed.

Lemma success_passthrough_witness :
  let req := mkRequest "POST" [("connectionId", QStr "c1")]
               (VObj [("firstName", VStr "Ada"); ("lastName", VStr "Lovelace")]) in
  handler (Some "k") (vendor_ok (VObj [("id", VNum 1)])) req
  = ([post_call (Some "k") (QStr "c1") (req_body req)], res_json 200 (VObj [("id", VNum 1)])).
Proof.
  intro req.
  apply (proj2 (success_passthrough (Some "k") (vendor_ok (VObj [("id", VNum 1)])) req
                  "c1" 200 (VObj [("id", VNum 1)]) eq_refl ltac:(discriminate) eq_refl)
           eq_refl eq_refl).
Defined.

(** C3 as stated fails: a [DELETE] with no [connectionId] gets the 400 of
    the [connectionId] guard, which runs before the method switch. *)
Lemma other_verb_405_counterexample :
  ~ (forall (key : option string) (v : vendor) (req : request),
       method req <> "GET" -> method req <> "POST" ->
       status (snd (handler key v req)) = 405%Z /\
       headers (snd (handler key v req)) = [("Allow", ["GET"; "POST"])]).
Proof.
  intro H.
  destruct (H None vendor_down (mkRequest "DELETE" [] VUndef)) as [Hs _];
    [discriminate | discriminate |].
  discriminate Hs.
Qed.

(** C3 (amended): a request with a present, non-empty [connectionId] and a
    method other than [GET] or [POST] gets 405 with [Allow: GET, POST] and
    no outbound call. *)
Theorem other_verb_405 :
  forall (key : option string) (v : vendor) (req : request),
    qtruthy (query_get req "connectionId") = true ->
    method req <> "GET" -> method req <> "POST" ->
    handler key v req =
      ([], mkResponse 405 [("Allow", ["GET"; "POST"])]
             (TextBody ("Method " ++ method req ++ " Not Allowed"))).
Proof.
  intros key v req Hq Hg Hp. unfold handler. rewrite Hq. simpl.
  apply String.eqb_neq in Hg, Hp. rewrite Hg, Hp. reflexivity.
Qed.

Lemma other_verb_405_witness :
  handler None vendor_down (mkRequest "PATCH" [("connectionId", QArr ["a"; "b"])] VUndef) =
    ([], mkResponse 405 [("Allow", ["GET"; "POST"])] (TextBody "Method PATCH Not Allowed")).
Proof. apply other_verb_405; [reflexivity | discriminate | discriminate]. Defined.

Definition fetch_failed : response := res_json 500 (VObj [("error", VStr "Error fetching contacts")]).
Definition create_failed : response := res_json 500 (VObj [("error", VStr "Error creating contact")]).

(** The vendor-side errors the spec lists: no reply at all, a non-2xx
    status (4xx, 5xx), or a body that is not valid JSON. *)
Definition vendor_error (r : reply) : Prop :=
  r = NetworkError \/ (exists c p, r = Reply c p /\ is_2xx c = false) \/
  (exists c t, r = Reply c (Text t)).

(** C6 as stated fails: a 2xx vendor reply whose body is not valid JSON is
    not an error for axios (silent JSON parsing), and the handler forwards
    the raw text with status 200. *)
Lemma vendor_error_500_counterexample :
  ~ (forall (key : option string) (v : vendor) (req : request) (s : string),
       query_get req "connectionId" = QStr s -> s <> "" -> method req = "GET" ->
       vendor_error (v (get_call key (QStr s))) ->
       snd (handler key v req) = fetch_failed).
Proof.
  intro H.
  specialize (H (Some "k") (fun _ => Reply 200 (Text "<html>oops</html>"))
                (mkRequest "GET" [("connectionId", QStr "c1")] VUndef) "c1"
                eq_refl ltac:(discriminate) eq_refl
                (or_intror (or_intror (ex_intro _ 200%Z (ex_intro _ _ eq_refl))))).
  discriminate H.
Qed.

(** C6 (amended): for any present [connectionId] (a non-empty string or a
    repeated parameter), when the vendor call is rejected (network
    failure, or a non-2xx status such as 4xx or 5xx), a [GET] gets exactly
    500 [{error: 'Error fetching contacts'}] and a [POST] exactly 500
    [{error: 'Error creating contact'}]: constant bodies, with neither the
    API key nor the vendor's reply in them. A 2xx reply whose body is not
    valid JSON is no error: its raw text is sent back with status 200. *)
Theorem vendor_error_500 :
  forall (key : option string) (v : vendor) (req : request),
    let q := query_get req "connectionId" in
    qtruthy q = true ->
    (method req = "GET" ->
       (v (get_call key q) = NetworkError \/
        exists c p, v (get_call key q) = Reply c p /\ is_2xx c = false) ->
       snd (handler key v req) = fetch_failed) /\
    (method req = "POST" ->
       (v (post_call key q (req_body req)) = NetworkError \/
        exists c p, v (post_call key q (req_body req)) = Reply c p /\ is_2xx c = false) ->
       snd (handler key v req) = create_failed) /\
    (forall (c : Z) (t : string), is_2xx c = true ->
       (method req = "GET" -> v (get_call key q) = Reply c (Text t) ->
          snd (handler key v req) = res_json 200 (VStr t)) /\
       (method req = "POST" -> v (post_call key q (req_body req)) = Reply c (Text t) ->
          snd (handler key v req) = res_json 200 (VStr t))).
Proof.
  intros key v req q Hq.
  split; [| split; [| intros c t Hc; split]]; intros Hm Hv; unfold handler; fold q;
    rewrite Hq, Hm; simpl.
  - destruct Hv as [Hv | (c & p & Hv & Hc)]; rewrite Hv; simpl; try rewrite Hc; reflexivity.
  - destruct Hv as [Hv | (c & p & Hv & Hc)]; rewrite Hv; simpl; try rewrite Hc; reflexivity.
  - rewrite Hv. simpl. rewrite Hc. reflexivity.
  - rewrite Hv. simpl. rewrite Hc. reflexivity.
Qed.

Lemma vendor_error_500_witness :
  snd (handler (Some "k") (fun _ => Reply 503 (Text ""))
         (mkRequest "GET" [("connectionId", QArr ["a"; "b"])] VUndef)) = fetch_failed.
Proof.
  apply (proj1 (vendor_error_500 (Some "k") (fun _ => Reply 503 (Text ""))
                  (mkRequest "GET" [("connectionId", QArr ["a"; "b"])] VUndef) eq_refl) eq_refl).
  right. exists 503%Z, (Text ""). split; reflexivity.
Defined.

(** C9: the handler keeps no state between calls: two [GET] requests with
    the same [connectionId], against the same vendor state, make the same
    outbound call and get the same response, whatever else differs between
    them (other query parameters, body). *)
Theorem get_idempotent :
  forall (key : option string) (v : vendor) (r1 r2 : request),
    method r1 = "GET" -> method r2 = "GET" ->
    query_get r1 "connectionId" = query_get r2 "connectionId" ->
    handler key v r1 = handler key v r2.
Proof.
  intros key v r1 r2 H1 H2 Hq. unfold handler. rewrite Hq, H1, H2. reflexivity.
Qed.

Lemma get_idempotent_witness :
  handler (Some "k") (vendor_ok (VObj [("contacts", VArr [VStr "x"])]))
    (mkRequest "GET" [("connectionId", QStr "c1")] VUndef) =
  handler (Some "k") (vendor_ok (VObj [("contacts", VArr [VStr "x"])]))
    (mkRequest "GET" [("page", QStr "2"); ("connectionId", QStr "c1")] (VStr "ignored")).
Proof. apply get_idempotent; reflexivity. Defined.

End ContactsProps.

(** ** The Session Bridge *)
Module JwtProps.
Import JwtToken.

(** C4: when the vendor answers 2xx with a JSON object holding a [token]
    field, the route answers 200 [{token}] with that very value. *)
Theorem token_passthrough :
  forall (key uid : option string) (v : vendor) (req : request)
         (code : Z) (fs : list (string * val)) (t : val),
    v (token_call key uid) = Reply code (Json (VObj fs)) -> is_2xx code = true ->
    assoc "token" fs = Some t ->
    snd (handler key uid v req) = res_json 200 (VObj [("token", t)]).
Proof.
  intros key uid v req code fs t Hv Hc Ht.
  unfold handler. simpl. rewrite Hv. simpl. rewrite Hc. simpl. rewrite Ht. reflexivity.
Qed.

Lemma token_passthrough_witness :
  snd (handler (Some "k") (Some "u") (vendor_ok (VObj [("token", VStr "jwt.abc")]))
         (mkRequest "GET" [] VUndef))
  = res_json 200 (VObj [("token", VStr "jwt.abc")]).
Proof. apply (token_passthrough _ _ _ _ 200 [("token", VStr "jwt.abc")]); reflexivity. Defined.

(** C5 as stated fails: a 2xx reply whose JSON object has no [token] field
    is not collapsed into the 500; the route answers 200 with an
    [undefined] token. *)
Lemma token_failures_collapse_counterexample :
  ~ (forall (key uid : option string) (v : vendor) (req : request),
       (v (token_call key uid) = NetworkError \/
        (exists c p, v (token_call key uid) = Reply c p /\ is_2xx c = false) \/
        (exists c fs, v (token_call key uid) = Reply c (Json (VObj fs)) /\
                      assoc "token" fs = None)) ->
       snd (handler key uid v req) = token_error).
Proof.
  intro H.
  specialize (H (Some "k") (Some "u") (vendor_ok (VObj [])) (mkRequest "GET" [] VUndef)
                (or_intror (or_intror (ex_intro _ 200%Z (ex_intro _ [] (conj eq_refl eq_refl)))))).
  discriminate H.
Qed.

(** C5 (amended): a network failure and a non-2xx status both give the
    one generic 500 [{error: 'Error generating JWT token'}]; so does a 2xx
    reply whose body is JSON [null]; a 2xx reply whose JSON object lacks
    [token] gives 200 with [token] undefined. *)
Theorem token_failures_collapse :
  forall (key uid : option string) (v : vendor) (req : request),
    ((v (token_call key uid) = NetworkError \/
      exists c p, v (token_call key uid) = Reply c p /\ is_2xx c = false) ->
     snd (handler key uid v req) = token_error) /\
    (forall c, v (token_call key uid) = Reply c (Json VNull) -> is_2xx c = true ->
     snd (handler key uid v req) = token_error) /\
    (forall c fs, v (token_call key uid) = Reply c (Json (VObj fs)) -> is_2xx c = true ->
     assoc "token" fs = None ->
     snd (handler key uid v req) = res_json 200 (VObj [("token", VUndef)])).
Proof.
  intros key uid v req. unfold handler. simpl. split; [| split].
  - intros [Hv | (c & p & Hv & Hc)]; rewrite Hv; simpl; try rewrite Hc; reflexivity.
  - intros c Hv Hc. rewrite Hv. simpl. rewrite Hc. reflexivity.
  - intros c fs Hv Hc Ht. rewrite Hv. simpl. rewrite Hc. simpl. rewrite Ht. reflexivity.
Qed.

Lemma token_failures_collapse_witness :
  snd (handler (Some "k") (Some "u") vendor_down (mkRequest "GET" [] VUndef)) = token_error.
Proof. apply (proj1 (token_failures_collapse _ _ _ _)). left. reflexivity. Defined.

(** C10: the route never reads the request: every request (any method)
    gets the same outbound call and the same response, and that response
    is never a 405. *)
Theorem token_ignores_method :
  forall (key uid : option string) (v : vendor) (r1 r2 : request),
    handler key uid v r1 = handler key uid v r2 /\
    status (snd (handler key uid v r1)) <> 405%Z.
Proof.
  intros key uid v r1 r2. split; [reflexivity |].
  unfold handler. simpl.
  destruct (axios_settle (v (token_call key uid))) as [d |]; [| discriminate].
  destruct (get_prop d "token"); discriminate.
Qed.

End JwtProps.

(** ** The browser views *)
Module ViewProps.

(** C7: once a connection id is held, a successful create clears both
    fields and a failed create leaves them as they were; a failed fetch
    (rejected request, or a [response.data] whose [contacts] cannot be
    read) leaves the displayed contacts as they were. *)
Theorem failure_keeps_ui_state :
  forall (connectionId : string) (server : vendor),
    truthy_str connectionId = true ->
    (forall f d, axios_settle (server (CreateContact.submit_call connectionId f)) = Resolved d ->
       snd (CreateContact.handleSubmit connectionId server f) = CreateContact.mkForm "" "") /\
    (forall f, axios_settle (server (CreateContact.submit_call connectionId f)) = Rejected ->
       snd (CreateContact.handleSubmit connectionId server f) = f) /\
    (forall st, axios_settle (server (ContactList.fetch_call connectionId)) = Rejected ->
       ContactList.contacts (snd (ContactList.fetchContacts connectionId server st))
       = ContactList.contacts st) /\
    (forall st d, axios_settle (server (ContactList.fetch_call connectionId)) = Resolved d ->
       get_prop d "contacts" = None ->
       ContactList.contacts (snd (ContactList.fetchContacts connectionId server st))
       = ContactList.contacts st).
Proof.
  intros cid server Hc. split; [| split; [| split]].
  - intros f d Hs. unfold CreateContact.handleSubmit. rewrite Hc, Hs. reflexivity.
  - intros f Hs. unfold CreateContact.handleSubmit. rewrite Hc, Hs. reflexivity.
  - intros st Hs. unfold ContactList.fetchContacts. rewrite Hc, Hs. reflexivity.
  - intros st d Hs Hd. unfold ContactList.fetchContacts. rewrite Hc, Hs, Hd. reflexivity.
Qed.

Lemma failure_keeps_ui_state_witness :
  snd (CreateContact.handleSubmit "c1" vendor_down (CreateContact.mkForm "Ada" "Lovelace"))
  = CreateContact.mkForm "Ada" "Lovelace".
Proof.
  apply (proj1 (proj2 (failure_keeps_ui_state "c1" vendor_down eq_refl))). reflexivity.
Defined.

(** C8: without a connection id ([useState('')]), the Listing view shows
    the "complete Step 1" prompt and, through any sequence of activations
    and refreshes, issues no request and keeps its state. *)
Theorem listing_idle_without_connection :
  forall (server : vendor) (st : ContactList.list_state) (es : list ContactList.event),
    ContactList.run "" server st es = ([], st) /\ ContactList.render "" st = ContactList.Prompt.
Proof.
  intros server st es. split; [| reflexivity].
  induction es as [| e es IH]; [reflexivity |].
  destruct e; simpl; fold ContactList.run; rewrite IH; reflexivity.
Qed.

End ViewProps.

(** ** Further properties of the API routes *)
Module RouteExtra.

(** The contacts route answers only 200, 400, 405 or 500 (a vendor status
    such as 201 or 404 is never passed on), and it makes a vendor call, a
    single one, exactly when [connectionId] is truthy and the method is
    [GET] or [POST]. *)
Theorem contacts_status_and_calls :
  forall (key : option string) (v : vendor) (req : request),
    In (status (snd (Contacts.handler key v req))) [200; 400; 405; 500]%Z /\
    length (fst (Contacts.handler key v req)) <= 1 /\
    (fst (Contacts.handler key v req) <> [] <->
     qtruthy (query_get req "connectionId") = true /\
     (method req = "GET" \/ method req = "POST")).
Proof.
  intros key v req. unfold Contacts.handler.
  destruct (qtruthy (query_get req "connectionId")) eqn:Hq; simpl.
  - destruct (String.eqb (method req) "GET") eqn:Hg.
    + apply String.eqb_eq in Hg.
      destruct (axios_settle _); simpl; repeat split; auto; discriminate.
    + destruct (String.eqb (method req) "POST") eqn:Hp.
      * apply String.eqb_eq in Hp.
        destruct (axios_settle _); simpl; repeat split; auto; discriminate.
      * apply String.eqb_neq in Hg, Hp. simpl. repeat split; auto.
        -- exfalso; apply H; reflexivity.
        -- intros [_ [H1 | H1]]; contradiction.
  - repeat split; auto.
    + exfalso; apply H; reflexivity.
    + intros [H1 _]; discriminate.
Qed.



(** A repeated [connectionId] query parameter (an array) passes the
    presence check even when every value is empty, and the vendor is
    called with the values joined by commas. *)
Theorem contacts_repeated_connection_id :
  forall (key : option string) (v : vendor) (req : request) (l : list string),
    query_get req "connectionId" = QArr l -> method req = "GET" ->
    fst (Contacts.handler key v req) = [Contacts.get_call key (QArr l)] /\
    o_url (Contacts.get_call key (QArr l)) =
      "https://embedded.runalloy.com/2023-12/one/crm/contacts?connectionId=" ++ String.concat "," l.
Proof.
  intros key v req l Hq Hm. unfold Contacts.handler. rewrite Hq, Hm. simpl. auto.
Qed.

Lemma contacts_repeated_connection_id_witness :
  fst (Contacts.handler (Some "k") vendor_down
         (mkRequest "GET" [("connectionId", QArr [""; ""])] VUndef))
  = [Contacts.get_call (Some "k") (QArr [""; ""])].
Proof. apply (contacts_repeated_connection_id _ _ _ [""; ""]); reflexivity. Defined.

(** The token route answers 200 exactly when the vendor replies 2xx with a
    body other than [null] (whose [.token] read would throw); otherwise it
    answers 500. *)
Theorem token_status_iff :
  forall (key uid : option string) (v : vendor) (req : request),
    (status (snd (JwtToken.handler key uid v req)) = 200%Z \/
     status (snd (JwtToken.handler key uid v req)) = 500%Z) /\
    (status (snd (JwtToken.handler key uid v req)) = 200%Z <->
     exists c p, v (JwtToken.token_call key uid) = Reply c p /\ is_2xx c = true /\
                 payload_data p <> VNull /\ payload_data p <> VUndef).
Proof.
  intros key uid v req. unfold JwtToken.handler. simpl.
  destruct (v (JwtToken.token_call key uid)) as [| c p] eqn:Hv; simpl.
  - split; [right; reflexivity |]. split; [discriminate |].
    intros (c & p & H & _); discriminate H.
  - destruct (is_2xx c) eqn:Hc.
    + destruct (payload_data p) eqn:Hp; simpl;
        (split; [auto |]); split; try discriminate;
        try (intros _; exists c, p; repeat split; auto; rewrite Hp; discriminate);
        intros (c' & p' & H & _ & H1 & H2); injection H as <- <-; congruence.
    + split; [right; reflexivity |]. split; [discriminate |].
      intros (c' & p' & H & H1 & _). injection H as <- <-. congruence.
Qed.


End RouteExtra.

(** ** Further properties of the browser code *)
Module BrowserExtra.
Import ConnectApp.

(** When the token request fails, or the SDK is not loaded, "Connect App"
    only logs one console error: no SDK call, nothing stored, and the
    page's state is left as it was. *)
Theorem connect_failure_inert :
  forall (server : vendor) (alloy : bool) (sdk : option val) (p : Page.page),
    axios_settle (server token_request) = Rejected \/ alloy = false ->
    (exists msg, snd (fetchTokenAndAuthenticate server alloy sdk) = [ConsoleError msg]) /\
    Page.apply_effects p (snd (fetchTokenAndAuthenticate server alloy sdk)) = p.
Proof.
  intros server alloy sdk p [H | H]; unfold fetchTokenAndAuthenticate; simpl.
  - rewrite H. split; [eexists; reflexivity | reflexivity].
  - destruct (axios_settle (server token_request)); rewrite ?H;
      split; (eexists; reflexivity) || reflexivity.
Qed.

Lemma connect_failure_inert_witness :
  Page.apply_effects (Page.init []) (snd (fetchTokenAndAuthenticate vendor_down true None))
  = Page.init [].
Proof. apply connect_failure_inert. left. reflexivity. Defined.

(** The connection id is stored in [localStorage] and handed to the page
    only when the token was fetched, the SDK is loaded, and the SDK reports
    a truthy [success]. *)
Theorem connect_established_only_on_success :
  forall (server : vendor) (alloy : bool) (sdk : option val) (e : effect),
    In e (snd (fetchTokenAndAuthenticate server alloy sdk)) ->
    (exists id, e = Established id) \/ (exists k x, e = SetItem k x) ->
    alloy = true /\
    exists data t d s,
      axios_settle (server token_request) = Resolved data /\ get_prop data "token" = Some t /\
      sdk = Some d /\ get_prop d "success" = Some s /\ truthy s = true.
Proof.
  intros server alloy sdk e Hin Hk. unfold fetchTokenAndAuthenticate in Hin. simpl in Hin.
  destruct (axios_settle (server token_request)) as [data |] eqn:Hs;
    [| destruct Hin as [<- | []]; destruct Hk as [(? & ?) | (? & ? & ?)]; discriminate].
  destruct alloy;
    [| destruct Hin as [<- | []]; destruct Hk as [(? & ?) | (? & ? & ?)]; discriminate].
  destruct (get_prop data "token") as [t |] eqn:Ht;
    [| destruct Hin as [<- | []]; destruct Hk as [(? & ?) | (? & ? & ?)]; discriminate].
  destruct Hin as [<- | [<- | Hin]];
    [destruct Hk as [(? & ?) | (? & ? & ?)]; discriminate
    |destruct Hk as [(? & ?) | (? & ? & ?)]; discriminate |].
  destruct sdk as [d |]; [| contradiction].
  unfold callback in Hin.
  destruct (get_prop d "success") as [s |] eqn:Hd; [| contradiction].
  destruct (truthy s) eqn:Hts; [| contradiction].
  split; [reflexivity |]. exists data, t, d, s. auto.
Qed.

Lemma connect_established_only_on_success_witness :
  let sdk := Some (VObj [("success", VBool true); ("connectionId", VStr "conn_1")]) in
  let server : vendor := fun _ => Reply 200 (Json (VObj [("token", VStr "jwt")])) in
  true = true /\
  exists data t d s,
    axios_settle (server token_request) = Resolved data /\ get_prop data "token" = Some t /\
    sdk = Some d /\ get_prop d "success" = Some s /\ truthy s = true.
Proof.
  intros sdk server.
  apply (connect_established_only_on_success server true sdk (Established (VStr "conn_1"))).
  - simpl. auto.
  - left. eexists. reflexivity.
Defined.



(** When the SDK reports success without a [connectionId], the string
    ["undefined"] is written to [localStorage], while the page's
    [connectionId] becomes [undefined] and the contact views stay
    unmounted. *)
Theorem connect_success_without_id :
  forall (server : vendor) (data t s : val) (fs : list (string * val)) (p : Page.page),
    axios_settle (server token_request) = Resolved data -> get_prop data "token" = Some t ->
    assoc "success" fs = Some s -> truthy s = true -> assoc "connectionId" fs = None ->
    let p' := Page.apply_effects p (snd (fetchTokenAndAuthenticate server true (Some (VObj fs)))) in
    assoc "connectionId" (Page.storage p') = Some "undefined" /\
    Page.connectionId p' = VUndef /\ Page.mounts_views p' = false.
Proof.
  intros server data t s fs p Hs Ht Hsu Hts Hid p'.
  unfold p', fetchTokenAndAuthenticate. simpl. rewrite Hs, Ht.
  unfold callback. simpl. rewrite Hsu, Hts, Hid. repeat split; reflexivity.
Qed.

Lemma connect_success_without_id_witness :
  Page.mounts_views
    (Page.apply_effects (Page.init [])
       (snd (fetchTokenAndAuthenticate (vendor_ok (VObj [("token", VStr "jwt")])) true
               (Some (VObj [("success", VBool true)])))))
  = false.
Proof.
  destruct (connect_success_without_id (vendor_ok (VObj [("token", VStr "jwt")]))
              (VObj [("token", VStr "jwt")]) (VStr "jwt") (VBool true)
              [("success", VBool true)] (Page.init []) eq_refl eq_refl eq_refl eq_refl eq_refl)
    as (_ & _ & H).
  exact H.
Defined.

(** Submitting the creation form sends a request only when a connection
    id is held and both [required] fields are non-empty, and then exactly
    one [POST] carrying the current field values. *)
Theorem submit_requires_filled_form :
  forall (connectionId : string) (server : vendor) (f : CreateContact.form),
    fst (CreateContactForm.step connectionId server f CreateContactForm.Submit) <> [] ->
    truthy_str connectionId = true /\ CreateContactForm.form_valid f = true /\
    fst (CreateContactForm.step connectionId server f CreateContactForm.Submit) =
      [CreateContact.submit_call connectionId f].
Proof.
  intros cid server f H. simpl in *.
  destruct (CreateContactForm.form_valid f); [| contradiction H; reflexivity].
  unfold CreateContact.handleSubmit in *.
  destruct (truthy_str cid); [| contradiction H; reflexivity].
  destruct (axios_settle _); auto.
Qed.

Lemma submit_requires_filled_form_witness :
  fst (CreateContactForm.step "c1" vendor_down (CreateContact.mkForm "Ada" "Lovelace")
         CreateContactForm.Submit)
  = [CreateContact.submit_call "c1" (CreateContact.mkForm "Ada" "Lovelace")].
Proof. apply submit_requires_filled_form. discriminate. Defined.

(** Submitting twice: a second submission while the first [POST] is
    still pending sends the same values again; once a successful create has
    settled, the cleared [required] fields block a resubmission (one
    request in all); after a failed create the kept values are sent
    again. *)
Theorem double_submit :
  forall (connectionId : string) (server : vendor) (f : CreateContact.form),
    truthy_str connectionId = true -> CreateContactForm.form_valid f = true ->
    let c := CreateContact.submit_call connectionId f in
    let u0 := CreateContactAsync.mkUi f [] in
    CreateContactAsync.run connectionId server u0
      [CreateContactAsync.Submit; CreateContactAsync.Submit]
      = ([c; c], CreateContactAsync.mkUi f [c; c]) /\
    (forall d, axios_settle (server c) = Resolved d ->
       CreateContactAsync.run connectionId server u0
         [CreateContactAsync.Submit; CreateContactAsync.Settle 0; CreateContactAsync.Submit]
       = ([c], CreateContactAsync.mkUi (CreateContact.mkForm "" "") [])) /\
    (axios_settle (server c) = Rejected ->
       CreateContactAsync.run connectionId server u0
         [CreateContactAsync.Submit; CreateContactAsync.Settle 0; CreateContactAsync.Submit]
       = ([c; c], CreateContactAsync.mkUi f [c])).
Proof.
  intros cid server f Hc Hf c u0. split; [| split].
  - simpl. rewrite Hf, Hc. simpl. rewrite ?Hf, ?Hc. reflexivity.
  - intros d Hs. simpl. rewrite Hf, Hc. simpl. fold c. rewrite Hs. reflexivity.
  - intros Hs. simpl. rewrite Hf, Hc. simpl. fold c. rewrite Hs. simpl.
    rewrite ?Hf, ?Hc. reflexivity.
Qed.

Lemma double_submit_witness :
  CreateContactAsync.run "c1" vendor_down
    (CreateContactAsync.mkUi (CreateContact.mkForm "Ada" "Lovelace") [])
    [CreateContactAsync.Submit; CreateContactAsync.Submit]
  = ([CreateContact.submit_call "c1" (CreateContact.mkForm "Ada" "Lovelace");
      CreateContact.submit_call "c1" (CreateContact.mkForm "Ada" "Lovelace")],
     CreateContactAsync.mkUi (CreateContact.mkForm "Ada" "Lovelace")
       [CreateContact.submit_call "c1" (CreateContact.mkForm "Ada" "Lovelace");
        CreateContact.submit_call "c1" (CreateContact.mkForm "Ada" "Lovelace")]).
Proof.
  apply (double_submit "c1" vendor_down (CreateContact.mkForm "Ada" "Lovelace") eq_refl eq_refl).
Defined.

(** Helper: a completed [fetchContacts] with a connection id always turns
    the loading flag off; without one it changes nothing. *)
Lemma fetchContacts_loading :
  forall (cid : string) (server : vendor) (st : ContactList.list_state),
    (truthy_str cid = true ->
     ContactList.isLoading (snd (ContactList.fetchContacts cid server st)) = false) /\
    (truthy_str cid = false -> snd (ContactList.fetchContacts cid server st) = st).
Proof.
  intros cid server st. unfold ContactList.fetchContacts. split; intros H; rewrite H; [| reflexivity].
  destruct (axios_settle _) as [d |]; [destruct (get_prop d "contacts") |]; reflexivity.
Qed.

(** [fetchContacts] is its synchronous part (the loading flag on, one
    [GET /api/contacts?connectionId=...]) followed by the handling of how
    that request settles; in between the view shows the loading
    indicator. *)
Theorem fetch_begin_then_end :
  forall (cid : string) (server : vendor) (st : ContactList.list_state),
    ContactList.fetchContacts cid server st =
      match ContactListAsync.fetch_begin cid st with
      | (Some c, st1) => ([c], ContactListAsync.fetch_end (axios_settle (server c)) st1)
      | (None, st1) => ([], st1)
      end /\
    (truthy_str cid = true ->
     ContactList.render cid (snd (ContactListAsync.fetch_begin cid st)) = ContactList.Loading).
Proof.
  intros cid server st.
  unfold ContactList.fetchContacts, ContactListAsync.fetch_begin, ContactListAsync.fetch_end.
  split.
  - destruct (truthy_str cid); [| reflexivity].
    destruct (axios_settle _) as [d |]; [destruct (get_prop d "contacts") |]; reflexivity.
  - intros H. rewrite H. unfold ContactList.render. rewrite H. reflexivity.
Qed.

(** The loading indicator never stays on after the fetches settle: it is
    off after any sequence of activations and refreshes that started with
    it off, and after any non-empty one once a connection id is held. *)
Theorem loading_cleared :
  forall (cid : string) (server : vendor) (es : list ContactList.event)
         (st : ContactList.list_state),
    ContactList.isLoading st = false \/ (truthy_str cid = true /\ es <> []) ->
    ContactList.isLoading (snd (ContactList.run cid server st es)) = false.
Proof.
  intros cid server es. induction es as [| e es IH]; intros st H.
  - destruct H as [H | [_ H]]; [exact H | contradiction H; reflexivity].
  - simpl. destruct (ContactList.step cid server st e) as [cs1 st1] eqn:E.
    destruct (ContactList.run cid server st1 es) as [cs2 st2] eqn:E2. simpl.
    replace st2 with (snd (ContactList.run cid server st1 es)) by (rewrite E2; reflexivity).
    apply IH. left.
    assert (Hst1 : st1 = snd (ContactList.fetchContacts cid server st))
      by (destruct e; simpl in E; rewrite E; reflexivity).
    destruct (fetchContacts_loading cid server st) as [Ht Hf].
    destruct (truthy_str cid) eqn:Hc.
    + rewrite Hst1. apply Ht. reflexivity.
    + rewrite Hst1, Hf by reflexivity.
      destruct H as [H | [H _]]; [exact H | discriminate H].
Qed.

Lemma loading_cleared_witness :
  ContactList.isLoading
    (snd (ContactList.run "c1" vendor_down (ContactList.mkState (VArr []) true)
            [ContactList.Refresh])) = false.
Proof. apply loading_cleared. right. split; [reflexivity | discriminate]. Defined.



End BrowserExtra.
